(** * Batch object operations and archive links of the explorer service

    A shallow embedding of [service/explorer/objects.go]: the five request
    handlers [Archive], [Delete], [Move], [Copy] and [Rename], written in a
    small monad that threads the ephemeral cache, records every call made to
    an outside collaborator, and supports Go's early [return] and a run-time
    panic. *)

From Stdlib Require Import ZArith Lia.
From stdpp Require Import base option list strings gmap.

Local Open Scope string_scope.

(** ** Data *)

(** Go's [uint] identifiers.  The handlers never compute with them, they are
    only counted and passed on. *)
Definition uint := N.

(** A non-nil Go [error], represented by the text of its [Error()] method. *)
Definition error := string.

(** [time.Now().Unix()+30] is an [int64] addition, which wraps around. *)
Definition int64_wrap (z : Z) : Z :=
  ((z + 2 ^ 63) mod 2 ^ 64 - 2 ^ 63)%Z.

Definition int64_add (a b : Z) : Z := int64_wrap (a + b).
Arguments int64_wrap : simpl never.
Arguments int64_add : simpl never.

(** Go's [len] of a slice, an [int].  Two slices that fit in memory have
    lengths whose sum stays far below the range of [int], so the sum of two
    lengths is the exact one. *)
Definition len {A} (l : list A) : Z := Z.of_nat (length l).
Arguments len : simpl never.

(** [ItemService] 处理多文件/目录相关服务 *)
Record ItemService := {
  Items : list uint;
  Dirs : list uint
}.

(** [ItemMoveService] 处理多文件/目录移动.  Both request types have a field
    [Src], so each record lives in a module named after its Go type. *)
Module ItemMoveService.
Record t := {
  SrcDir : string;
  Src : ItemService;
  Dst : string
}.
End ItemMoveService.

(** [ItemRenameService] 处理多文件/目录重命名 *)
Module ItemRenameService.
Record t := {
  Src : ItemService;
  NewName : string
}.
End ItemRenameService.

(** The fields of [net/url.URL] that matter for a link. *)
Record URL := {
  Scheme : string;
  Host : string;
  Path : string;
  RawQuery : string
}.

(** [serializer.Response]: the envelope of every answer.  [Data] is an
    [interface{}] that these handlers leave nil or fill with a string. *)
Record Response := {
  Code : Z;
  Data : option string;
  Msg : string
}.

(** The error codes of package serializer that the handlers name.  Their
    numeric values are declared in pkg/serializer, outside [objects.go], so
    they are parameters. *)
Record ErrorCodes := {
  CodePolicyNotAllowed : Z;
  CodeGroupNotAllowed : Z;
  CodeNotSet : Z;
  CodeIOFailed : Z;
  CodeParamErr : Z
}.

(** What the surrounding code relies on: no error code is the success code,
    and a group refusal, a parameter error and a context failure are told
    apart from a failed operation. *)
Definition codes_ok (k : ErrorCodes) : bool :=
  negb (CodePolicyNotAllowed k =? 0)%Z && negb (CodeGroupNotAllowed k =? 0)%Z
  && negb (CodeNotSet k =? 0)%Z && negb (CodeIOFailed k =? 0)%Z
  && negb (CodeParamErr k =? 0)%Z
  && negb (CodeGroupNotAllowed k =? CodeNotSet k)%Z
  && negb (CodeParamErr k =? CodeNotSet k)%Z
  && negb (CodeParamErr k =? CodePolicyNotAllowed k)%Z.

(** Modelled from the spec: [serializer.Err] lives in pkg/serializer, whose
    source is missing beside [objects.go]; the
    spec's envelope [{code, data, msg}] reports a failure with the given code
    and a human-readable message, and carries no data. *)
Definition serializer_Err (errCode : Z) (msg : string) (err : option error)
  : Response :=
  {| Code := errCode; Data := None; Msg := msg |}.

(** Modelled from the spec: [serializer.ParamErr] lives in pkg/serializer,
    whose source is missing beside [objects.go];
    it is the spec's ParameterError, an error response of its own kind. *)
Definition serializer_ParamErr (k : ErrorCodes) (msg : string)
  (err : option error) : Response :=
  serializer_Err (CodeParamErr k) msg err.

(** The filesystem abstraction as the handlers see it: the capability flag of
    the acting user's group and the answers of the five delegate methods. *)
Record FileSystem := {
  ArchiveDownloadEnabled : bool;
  fs_Compress : list uint → list uint → string + error;
  fs_Delete : list uint → list uint → option error;
  fs_Move : list uint → list uint → string → string → option error;
  fs_Copy : list uint → list uint → string → string → option error;
  fs_Rename : list uint → list uint → string → option error
}.

(** Everything a request meets outside [objects.go].  A Go result [(T, error)]
    whose error is checked before the value is used is a sum; the result of
    [auth.SignURI], whose error is not, is the pair itself, with [None] for a
    nil pointer.  [rand_rune i] is the character the random source yields at
    its [i]-th draw. *)
Record World := {
  codes : ErrorCodes;
  NewFileSystemFromContext : FileSystem + error;
  GetSettingByName : string → string;
  url_Parse : string → URL + error;
  rand_rune : nat → Ascii.ascii;
  time_Now_Unix : Z;
  SignURI : string → Z → option URL * option error;
  ResolveReference : URL → URL → URL;
  URL_String : URL → string;
  cache_fault : string → option error;
  cache_clock : Z
}.

(** Modelled from the spec: [util.RandStringRunes] lives in pkg/util, whose
    source is missing beside [objects.go].  The spec describes the token as a
    random opaque string of the requested number of characters from a wide
    alphabet: [RandStringRunes n] is made of the first [n] draws of the random
    source. *)
Fixpoint rand_runes (draw : nat → Ascii.ascii) (i n : nat) : string :=
  match n with
  | O => EmptyString
  | S n' => String (draw i) (rand_runes draw (S i) n')
  end.

Definition RandStringRunes (W : World) (n : nat) : string :=
  rand_runes (rand_rune W) 0 n.
Arguments RandStringRunes : simpl never.

(** ** The ephemeral cache *)

Record CacheItem := {
  item_value : string;
  item_expires : Z
}.

Abbreviation Cache := (gmap string CacheItem).

(** Modelled from the spec: package cache (pkg/cache) is missing beside
    [objects.go].  The spec
    describes a key-value store with per-entry expiration: an entry written at
    time [now] with a TTL of [ttl] time-units is there before [now + ttl] and
    gone after it.  A write that reports an error stores nothing. *)
Definition cache_store (now : Z) (key value : string) (ttl : Z) (c : Cache)
  : Cache :=
  <[key := {| item_value := value; item_expires := (now + ttl)%Z |}]> c.

Definition cache_Get (now : Z) (key : string) (c : Cache) : option string :=
  match c !! key with
  | Some it => if (now <? item_expires it)%Z then Some (item_value it) else None
  | None => None
  end.

(** ** Calls, outcomes and the handler monad *)

Inductive Event :=
| ENewFileSystemFromContext
| ECompress (dirs items : list uint)
| EDelete (dirs items : list uint)
| EMove (dirs items : list uint) (src dst : string)
| ECopy (dirs items : list uint) (src dst : string)
| ERename (dirs items : list uint) (new : string)
| ESignURI (uri : string) (expires : Z)
| ECacheSet (key value : string) (ttl : Z) (res : option error).

(** The calls that reach the filesystem delegate. *)
Definition is_delegate (e : Event) : bool :=
  match e with
  | ECompress _ _ | EDelete _ _ | EMove _ _ _ _ | ECopy _ _ _ _
  | ERename _ _ _ => true
  | _ => false
  end.

Definition delegate_calls (evs : list Event) : list Event :=
  List.filter is_delegate evs.

(** How a piece of a handler ends: it goes on with a value, it leaves the
    handler with a response, or the Go run time panics. *)
Inductive Flow (A : Type) :=
| Next (a : A)
| Return (r : Response)
| Panic.
Arguments Next {A} a.
Arguments Return {A} r.
Arguments Panic {A}.

Record Run (A : Type) := MkRun {
  flow : Flow A;
  store : Cache;
  events : list Event
}.
Arguments MkRun {A} flow store events.
Arguments flow {A} r.
Arguments store {A} r.
Arguments events {A} r.

Definition M (A : Type) : Type := Cache → Run A.

#[export] Instance M_ret : MRet M := λ A a c, MkRun (Next a) c [].

(** Sequencing: the second piece runs on the cache the first one left, and
    only when the first one goes on; the calls of both are recorded in
    order. *)
#[export] Instance M_bind : MBind M := λ A B k m c,
  match m c with
  | MkRun (Next a) c1 evs1 =>
      match k a c1 with
      | MkRun f c2 evs2 => MkRun f c2 (evs1 ++ evs2)
      end
  | MkRun (Return x) c1 evs1 => MkRun (Return x) c1 evs1
  | MkRun Panic c1 evs1 => MkRun Panic c1 evs1
  end.

Definition emit (e : Event) : M unit := λ c, MkRun (Next tt) c [e].

Definition return_ {A} (r : Response) : M A := λ c, MkRun (Return r) c [].

Definition panic {A} : M A := λ c, MkRun Panic c [].

(** [if err != nil { return h err }] on a checked result. *)
Definition check {A} (x : A + error) (h : error → Response) : M A :=
  match x with
  | inl a => mret a
  | inr err => return_ (h err)
  end.

(** [if err != nil { return h err }] on a bare error. *)
Definition check_err (x : option error) (h : error → Response) : M unit :=
  match x with
  | None => mret tt
  | Some err => return_ (h err)
  end.

(** What the caller of a handler gets. *)
Inductive Outcome :=
| Responded (r : Response)
| Panicked.

Definition outcome (r : Run Response) : Outcome :=
  match flow r with
  | Next x | Return x => Responded x
  | Panic => Panicked
  end.

(** ** The handlers *)

Section Handlers.

Context (W : World).

(** The collaborators as calls: each records itself and answers as the world
    says. *)
Definition filesystem_NewFileSystemFromContext : M (FileSystem + error) :=
  emit ENewFileSystemFromContext;; mret (NewFileSystemFromContext W).

Definition Compress (fs : FileSystem) (dirs items : list uint)
  : M (string + error) :=
  emit (ECompress dirs items);; mret (fs_Compress fs dirs items).

Definition fsDelete (fs : FileSystem) (dirs items : list uint)
  : M (option error) :=
  emit (EDelete dirs items);; mret (fs_Delete fs dirs items).

Definition fsMove (fs : FileSystem) (dirs items : list uint) (src dst : string)
  : M (option error) :=
  emit (EMove dirs items src dst);; mret (fs_Move fs dirs items src dst).

Definition fsCopy (fs : FileSystem) (dirs items : list uint) (src dst : string)
  : M (option error) :=
  emit (ECopy dirs items src dst);; mret (fs_Copy fs dirs items src dst).

Definition fsRename (fs : FileSystem) (dirs items : list uint) (new : string)
  : M (option error) :=
  emit (ERename dirs items new);; mret (fs_Rename fs dirs items new).

Definition auth_SignURI (uri : string) (expires : Z)
  : M (option URL * option error) :=
  emit (ESignURI uri expires);; mret (SignURI W uri expires).

(** [siteURL.ResolveReference(signedURI).String()]: [ResolveReference] reads
    through its argument first, so a nil [signedURI] is a nil-pointer panic. *)
Definition resolve_String (siteURL : URL) (signedURI : option URL) : M string :=
  match signedURI with
  | Some ref => mret (URL_String W (ResolveReference W siteURL ref))
  | None => panic
  end.

Definition cache_Set (key value : string) (ttl : Z) : M (option error) :=
  λ c,
    match cache_fault W key with
    | Some err => MkRun (Next (Some err)) c [ECacheSet key value ttl (Some err)]
    | None =>
        MkRun (Next None) (cache_store (cache_clock W) key value ttl c)
          [ECacheSet key value ttl None]
    end.

Definition archive_path (zipID : string) : string :=
  "/api/v3/file/archive/" ++ zipID ++ "/archive.zip".

(** [Archive] 创建归档 *)
Definition Archive (service : ItemService) : M Response :=
  (* 创建文件系统 *)
  r ← filesystem_NewFileSystemFromContext;
  fs ← check r (λ err,
    serializer_Err (CodePolicyNotAllowed (codes W)) err (Some err));
  (* 检查用户组权限 *)
  (if negb (ArchiveDownloadEnabled fs)
   then return_ (serializer_Err (CodeGroupNotAllowed (codes W))
                   "当前用户组无法进行此操作" None)
   else mret tt);;
  (* 开始压缩 *)
  r ← Compress fs (Dirs service) (Items service);
  zipFile ← check r (λ err,
    serializer_Err (CodeNotSet (codes W)) "无法创建压缩文件" (Some err));
  (* 生成一次性压缩文件下载地址 *)
  siteURL ← check (url_Parse W (GetSettingByName W "siteURL")) (λ err,
    serializer_Err (CodeNotSet (codes W)) "无法解析站点URL" (Some err));
  let zipID := RandStringRunes W 16 in
  signed ← auth_SignURI (archive_path zipID) (int64_add (time_Now_Unix W) 30);
  let signedURI := signed.1 in
  finalURL ← resolve_String siteURL signedURI;
  (* 将压缩文件记录存入缓存 *)
  err ← cache_Set ("archive_" ++ zipID) zipFile 30;
  check_err err (λ err,
    serializer_Err (CodeIOFailed (codes W)) "无法写入缓存" (Some err));;
  mret {| Code := 0; Data := Some finalURL; Msg := "" |}.

(** [Delete] 删除对象 *)
Definition Delete (service : ItemService) : M Response :=
  (* 创建文件系统 *)
  r ← filesystem_NewFileSystemFromContext;
  fs ← check r (λ err,
    serializer_Err (CodePolicyNotAllowed (codes W)) err (Some err));
  (* 删除对象 *)
  err ← fsDelete fs (Dirs service) (Items service);
  check_err err (λ err, serializer_Err (CodeNotSet (codes W)) err (Some err));;
  mret {| Code := 0; Data := None; Msg := "" |}.

(** [Move] 移动对象 *)
Definition Move (service : ItemMoveService.t) : M Response :=
  (* 创建文件系统 *)
  r ← filesystem_NewFileSystemFromContext;
  fs ← check r (λ err,
    serializer_Err (CodePolicyNotAllowed (codes W)) err (Some err));
  (* 移动对象 *)
  err ← fsMove fs (Dirs (ItemMoveService.Src service))
          (Items (ItemMoveService.Src service))
          (ItemMoveService.SrcDir service) (ItemMoveService.Dst service);
  check_err err (λ err, serializer_Err (CodeNotSet (codes W)) err (Some err));;
  mret {| Code := 0; Data := None; Msg := "" |}.

(** [Copy] 复制对象 *)
Definition Copy (service : ItemMoveService.t) : M Response :=
  (* 复制操作只能对一个目录或文件对象进行操作 *)
  (if (len (Items (ItemMoveService.Src service))
       + len (Dirs (ItemMoveService.Src service)) >? 1)%Z
   then return_ (serializer_ParamErr (codes W) "只能复制一个对象" None)
   else mret tt);;
  (* 创建文件系统 *)
  r ← filesystem_NewFileSystemFromContext;
  fs ← check r (λ err,
    serializer_Err (CodePolicyNotAllowed (codes W)) err (Some err));
  (* 复制对象 *)
  err ← fsCopy fs (Dirs (ItemMoveService.Src service))
          (Items (ItemMoveService.Src service))
          (ItemMoveService.SrcDir service) (ItemMoveService.Dst service);
  check_err err (λ err, serializer_Err (CodeNotSet (codes W)) err (Some err));;
  mret {| Code := 0; Data := None; Msg := "" |}.

(** [Rename] 重命名对象 *)
Definition Rename (service : ItemRenameService.t) : M Response :=
  (* 重命名作只能对一个目录或文件对象进行操作 *)
  (if (len (Items (ItemRenameService.Src service))
       + len (Dirs (ItemRenameService.Src service)) >? 1)%Z
   then return_ (serializer_ParamErr (codes W) "只能操作一个对象" None)
   else mret tt);;
  (* 创建文件系统 *)
  r ← filesystem_NewFileSystemFromContext;
  fs ← check r (λ err,
    serializer_Err (CodePolicyNotAllowed (codes W)) err (Some err));
  (* 重命名对象 *)
  err ← fsRename fs (Dirs (ItemRenameService.Src service))
          (Items (ItemRenameService.Src service))
          (ItemRenameService.NewName service);
  check_err err (λ err, serializer_Err (CodeNotSet (codes W)) err (Some err));;
  mret {| Code := 0; Data := None; Msg := "" |}.

End Handlers.

(** ** The runs of [Archive]

    Every way a call of [Archive] can go, from the request to the delivered
    link, with the response, the cache and the calls made on the way. *)

Section ArchiveRuns.

Context (W : World) (service : ItemService) (c : Cache).

Local Abbreviation zipID := (RandStringRunes W 16).
Local Abbreviation expires := (int64_add (time_Now_Unix W) 30).
Local Abbreviation key := ("archive_" ++ RandStringRunes W 16).

Inductive archive_run : Run Response → Prop :=
| archive_no_context err :
    NewFileSystemFromContext W = inr err →
    archive_run
      (MkRun (Return (serializer_Err (CodePolicyNotAllowed (codes W)) err
                        (Some err)))
         c [ENewFileSystemFromContext])
| archive_denied fs :
    NewFileSystemFromContext W = inl fs →
    ArchiveDownloadEnabled fs = false →
    archive_run
      (MkRun (Return (serializer_Err (CodeGroupNotAllowed (codes W))
                        "当前用户组无法进行此操作" None))
         c [ENewFileSystemFromContext])
| archive_not_compressed fs err :
    NewFileSystemFromContext W = inl fs →
    ArchiveDownloadEnabled fs = true →
    fs_Compress fs (Dirs service) (Items service) = inr err →
    archive_run
      (MkRun (Return (serializer_Err (CodeNotSet (codes W))
                        "无法创建压缩文件" (Some err)))
         c [ENewFileSystemFromContext;
            ECompress (Dirs service) (Items service)])
| archive_bad_site fs zipFile err :
    NewFileSystemFromContext W = inl fs →
    ArchiveDownloadEnabled fs = true →
    fs_Compress fs (Dirs service) (Items service) = inl zipFile →
    url_Parse W (GetSettingByName W "siteURL") = inr err →
    archive_run
      (MkRun (Return (serializer_Err (CodeNotSet (codes W))
                        "无法解析站点URL" (Some err)))
         c [ENewFileSystemFromContext;
            ECompress (Dirs service) (Items service)])
| archive_nil_link fs zipFile siteURL :
    NewFileSystemFromContext W = inl fs →
    ArchiveDownloadEnabled fs = true →
    fs_Compress fs (Dirs service) (Items service) = inl zipFile →
    url_Parse W (GetSettingByName W "siteURL") = inl siteURL →
    (SignURI W (archive_path zipID) expires).1 = None →
    archive_run
      (MkRun Panic c
         [ENewFileSystemFromContext;
          ECompress (Dirs service) (Items service);
          ESignURI (archive_path zipID) expires])
| archive_not_bound fs zipFile siteURL signedURI err :
    NewFileSystemFromContext W = inl fs →
    ArchiveDownloadEnabled fs = true →
    fs_Compress fs (Dirs service) (Items service) = inl zipFile →
    url_Parse W (GetSettingByName W "siteURL") = inl siteURL →
    (SignURI W (archive_path zipID) expires).1 = Some signedURI →
    cache_fault W key = Some err →
    archive_run
      (MkRun (Return (serializer_Err (CodeIOFailed (codes W))
                        "无法写入缓存" (Some err)))
         c [ENewFileSystemFromContext;
            ECompress (Dirs service) (Items service);
            ESignURI (archive_path zipID) expires;
            ECacheSet key zipFile 30 (Some err)])
| archive_delivered fs zipFile siteURL signedURI :
    NewFileSystemFromContext W = inl fs →
    ArchiveDownloadEnabled fs = true →
    fs_Compress fs (Dirs service) (Items service) = inl zipFile →
    url_Parse W (GetSettingByName W "siteURL") = inl siteURL →
    (SignURI W (archive_path zipID) expires).1 = Some signedURI →
    cache_fault W key = None →
    archive_run
      (MkRun
         (Next {| Code := 0;
                  Data := Some (URL_String W
                                  (ResolveReference W siteURL signedURI));
                  Msg := "" |})
         (cache_store (cache_clock W) key zipFile 30 c)
         [ENewFileSystemFromContext;
          ECompress (Dirs service) (Items service);
          ESignURI (archive_path zipID) expires;
          ECacheSet key zipFile 30 None]).

End ArchiveRuns.

(** ** A sample world

    One concrete choice for everything outside [objects.go], used to run the
    handlers on concrete requests. *)

Definition sample_codes : ErrorCodes := {|
  CodePolicyNotAllowed := 40006;
  CodeGroupNotAllowed := 40007;
  CodeNotSet := -1;
  CodeIOFailed := 50004;
  CodeParamErr := 40001
|}.

Definition sample_fs (enabled : bool) : FileSystem := {|
  ArchiveDownloadEnabled := enabled;
  fs_Compress := λ _ _, inl "/tmp/archive_7.zip";
  fs_Delete := λ _ _, None;
  fs_Move := λ _ _ _ _, None;
  fs_Copy := λ _ _ _ _, None;
  fs_Rename := λ _ _ _, None
|}.

Definition sample_site : URL :=
  {| Scheme := "https"; Host := "pan.example.org"; Path := ""; RawQuery := "" |}.

Definition sample_sign (uri : string) (expires : Z) : URL :=
  {| Scheme := ""; Host := ""; Path := uri; RawQuery := "sign=c2lnbg" |}.

Definition sample_token : string := "q7Xa0bR2mT9cZ4vK".

(** A random source that spells out the string [s], then goes on with ["0"]. *)
Definition spell (s : string) (i : nat) : Ascii.ascii :=
  match String.get i s with
  | Some a => a
  | None => Ascii.Ascii false false false false true true false false
  end.

Definition sample_world (fs : FileSystem + error)
  (sign : string → Z → option URL * option error)
  (fault : string → option error) : World := {|
  codes := sample_codes;
  NewFileSystemFromContext := fs;
  GetSettingByName := λ _, "https://pan.example.org";
  url_Parse := λ _, inl sample_site;
  rand_rune := spell sample_token;
  time_Now_Unix := 1600000000;
  SignURI := sign;
  ResolveReference := λ base ref,
    {| Scheme := Scheme base; Host := Host base;
       Path := Path ref; RawQuery := RawQuery ref |};
  URL_String := λ u, Scheme u ++ "://" ++ Host u ++ Path u ++ "?" ++ RawQuery u;
  cache_fault := fault;
  cache_clock := 1600000000
|}.

(** The world in which every collaborator does its work. *)
Definition sunny : World :=
  sample_world (inl (sample_fs true))
    (λ uri expires, (Some (sample_sign uri expires), None)) (λ _, None).

(** Two worlds in which signing reports an error: one answers as Go functions
    usually do, with a nil link, the other hands back a link all the same. *)
Definition sign_error_nil : World :=
  sample_world (inl (sample_fs true))
    (λ _ _, (None, Some "sign: invalid uri")) (λ _, None).

Definition sign_error_link : World :=
  sample_world (inl (sample_fs true))
    (λ uri expires, (Some (sample_sign uri expires), Some "sign: invalid uri"))
    (λ _, None).

(** A world whose cache refuses every write. *)
Definition cache_down : World :=
  sample_world (inl (sample_fs true))
    (λ uri expires, (Some (sample_sign uri expires), None))
    (λ _, Some "cache: connection refused").

(** A world without a user in the request: no filesystem context. *)
Definition no_context : World :=
  sample_world (inr "object not exist")
    (λ uri expires, (Some (sample_sign uri expires), None)) (λ _, None).

(** A world in which the group of the user may not download archives. *)
Definition group_denied : World :=
  sample_world (inl (sample_fs false))
    (λ uri expires, (Some (sample_sign uri expires), None)) (λ _, None).

Definition selection (dirs items : list uint) : ItemService :=
  {| Items := items; Dirs := dirs |}.

Definition move_request (dirs items : list uint) : ItemMoveService.t :=
  {| ItemMoveService.SrcDir := "/a";
     ItemMoveService.Src := selection dirs items;
     ItemMoveService.Dst := "/b" |}.

Definition rename_request (dirs items : list uint) : ItemRenameService.t :=
  {| ItemRenameService.Src := selection dirs items;
     ItemRenameService.NewName := "report.pdf" |}.

(** ** Vocabulary for runs *)

(** The two calls that only issuing an archive link makes. *)
Definition is_archive_step (e : Event) : bool :=
  match e with
  | ESignURI _ _ | ECacheSet _ _ _ _ => true
  | _ => false
  end.

(** A run that answered without data, left the cache [c] alone, neither
    signed nor wrote to the cache, and called the delegate at most once. *)
Definition quiet_run (c : Cache) (r : Run Response) : Prop :=
  store r = c
  ∧ (∃ resp, outcome r = Responded resp ∧ Data resp = None)
  ∧ List.filter is_archive_step (events r) = []
  ∧ (length (delegate_calls (events r)) ≤ 1)%nat.

(** The run that ends at a filesystem context that cannot be resolved. *)
Definition context_error (W : World) (c : Cache) (err : error)
  : Run Response :=
  MkRun (Return (serializer_Err (CodePolicyNotAllowed (codes W)) err
                   (Some err)))
    c [ENewFileSystemFromContext].

(** The run that resolves the context, then makes the delegate call [call],
    then maps the delegate's answer to the response. *)
Definition delegated (W : World) (c : Cache) (call : Event)
  (answer : option error) : Run Response :=
  MkRun
    match answer with
    | None => Next {| Code := 0; Data := None; Msg := "" |}
    | Some err => Return (serializer_Err (CodeNotSet (codes W)) err (Some err))
    end
    c [ENewFileSystemFromContext; call].

(** The world [W] with another [auth.SignURI]. *)
Definition with_SignURI (W : World)
  (sign : string → Z → option URL * option error) : World := {|
  codes := codes W;
  NewFileSystemFromContext := NewFileSystemFromContext W;
  GetSettingByName := GetSettingByName W;
  url_Parse := url_Parse W;
  rand_rune := rand_rune W;
  time_Now_Unix := time_Now_Unix W;
  SignURI := sign;
  ResolveReference := ResolveReference W;
  URL_String := URL_String W;
  cache_fault := cache_fault W;
  cache_clock := cache_clock W
|}.

(** ** More sample worlds *)

(** A filesystem whose every delegate method reports an error. *)
Definition broken_fs : FileSystem := {|
  ArchiveDownloadEnabled := true;
  fs_Compress := λ _ _, inr "disk full";
  fs_Delete := λ _ _, Some "disk full";
  fs_Move := λ _ _ _ _, Some "disk full";
  fs_Copy := λ _ _ _ _, Some "disk full";
  fs_Rename := λ _ _ _, Some "disk full"
|}.

Definition disk_full : World :=
  sample_world (inl broken_fs)
    (λ uri expires, (Some (sample_sign uri expires), None)) (λ _, None).

(** A world whose [siteURL] setting does not parse. *)
Definition bad_site : World := {|
  codes := sample_codes;
  NewFileSystemFromContext := inl (sample_fs true);
  GetSettingByName := λ _, "://";
  url_Parse := λ _, inr "parse ://: missing protocol scheme";
  rand_rune := rand_rune sunny;
  time_Now_Unix := time_Now_Unix sunny;
  SignURI := SignURI sunny;
  ResolveReference := ResolveReference sunny;
  URL_String := URL_String sunny;
  cache_fault := cache_fault sunny;
  cache_clock := cache_clock sunny
|}.

(** A later request: another token, another archive, ten time-units on. *)
Definition later : World := {|
  codes := sample_codes;
  NewFileSystemFromContext :=
    inl {| ArchiveDownloadEnabled := true;
           fs_Compress := λ _ _, inl "/tmp/archive_8.zip";
           fs_Delete := λ _ _, None;
           fs_Move := λ _ _ _ _, None;
           fs_Copy := λ _ _ _ _, None;
           fs_Rename := λ _ _ _, None |};
  GetSettingByName := GetSettingByName sunny;
  url_Parse := url_Parse sunny;
  rand_rune := spell "Hy3pW8sLe1NdU5gF";
  time_Now_Unix := 1600000010;
  SignURI := SignURI sunny;
  ResolveReference := ResolveReference sunny;
  URL_String := URL_String sunny;
  cache_fault := cache_fault sunny;
  cache_clock := 1600000010
|}.

(** A world whose clock reads the largest [int64]. *)
Definition end_of_time : World := {|
  codes := sample_codes;
  NewFileSystemFromContext := inl (sample_fs true);
  GetSettingByName := GetSettingByName sunny;
  url_Parse := url_Parse sunny;
  rand_rune := rand_rune sunny;
  time_Now_Unix := 2 ^ 63 - 1;
  SignURI := SignURI sunny;
  ResolveReference := ResolveReference sunny;
  URL_String := URL_String sunny;
  cache_fault := cache_fault sunny;
  cache_clock := 2 ^ 63 - 1
|}.

(** * Properties *)

(** ** Running the monad *)

Lemma int64_add_exact (a b : Z) :
  (- 2 ^ 63 ≤ a + b < 2 ^ 63)%Z → int64_add a b = (a + b)%Z.
Proof.
  intros H. unfold int64_add, int64_wrap.
  rewrite Z.mod_small; lia.
Qed.

Lemma cache_Get_store (now t : Z) (key value : string) (ttl : Z) (c : Cache) :
  cache_Get t key (cache_store now key value ttl c)
  = if (t <? now + ttl)%Z then Some value else None.
Proof.
  unfold cache_Get, cache_store. by rewrite lookup_insert_eq.
Qed.

(** The token has as many characters as were asked for. *)
Lemma rand_runes_length (draw : nat → Ascii.ascii) (i n : nat) :
  String.length (rand_runes draw i n) = n.
Proof.
  revert i. induction n as [|n IH]; intros i; cbn; [reflexivity|].
  by rewrite IH.
Qed.

Lemma RandStringRunes_length (W : World) (n : nat) :
  String.length (RandStringRunes W n) = n.
Proof. apply rand_runes_length. Qed.

Lemma codes_ok_spec (k : ErrorCodes) :
  codes_ok k = true →
  CodePolicyNotAllowed k ≠ 0%Z ∧ CodeGroupNotAllowed k ≠ 0%Z
  ∧ CodeNotSet k ≠ 0%Z ∧ CodeIOFailed k ≠ 0%Z ∧ CodeParamErr k ≠ 0%Z
  ∧ CodeGroupNotAllowed k ≠ CodeNotSet k
  ∧ CodeParamErr k ≠ CodeNotSet k
  ∧ CodeParamErr k ≠ CodePolicyNotAllowed k.
Proof.
  unfold codes_ok. rewrite !andb_true_iff, !negb_true_iff, !Z.eqb_neq. tauto.
Qed.

(** Unfolds a handler down to the oracles of the world. *)
Ltac run_handler :=
  unfold Archive, Delete, Move, Copy, Rename,
    filesystem_NewFileSystemFromContext, Compress, fsDelete, fsMove, fsCopy,
    fsRename, auth_SignURI, resolve_String, cache_Set, check, check_err,
    emit, return_, panic, mbind, M_bind, mret, M_ret;
  cbn.

(** ** The runs of [Archive] *)

(** [Archive] always runs, and in one of the seven ways of [archive_run]. *)
Lemma Archive_run (W : World) (service : ItemService) (c : Cache) :
  archive_run W service c (Archive W service c).
Proof.
  run_handler.
  destruct (NewFileSystemFromContext W) as [fs|err] eqn:Hfs; cbn;
    [|by apply archive_no_context].
  destruct (ArchiveDownloadEnabled fs) eqn:Hflag; cbn;
    [|by eapply archive_denied].
  destruct (fs_Compress fs (Dirs service) (Items service))
    as [zipFile|err] eqn:Hzip; cbn; [|by eapply archive_not_compressed].
  destruct (url_Parse W (GetSettingByName W "siteURL"))
    as [siteURL|err] eqn:Hsite; cbn; [|by eapply archive_bad_site].
  destruct (SignURI W (archive_path (RandStringRunes W 16))
              (int64_add (time_Now_Unix W) 30)) as [[signedURI|] serr] eqn:Hs;
    cbn.
  - destruct (cache_fault W _) as [err|] eqn:Hc; cbn.
    + eapply archive_not_bound; eauto. by rewrite Hs.
    + eapply archive_delivered; eauto. by rewrite Hs.
  - eapply archive_nil_link; eauto. by rewrite Hs.
Qed.

(** Case analysis on the run of [Archive W s c]. *)
Ltac archive_cases W s c :=
  let R := fresh "R" in
  let HR := fresh "HR" in
  let Hrun := fresh "Hrun" in
  pose proof (Archive_run W s c) as Hrun;
  remember (Archive W s c) as R eqn:HR;
  destruct Hrun; cbn in *.

(** Two answers of the same oracle are the same answer. *)
Ltac same_answers :=
  repeat match goal with
  | H1 : ?x = ?a, H2 : ?x = ?b |- _ =>
      first [ is_var x; fail 1 | rewrite H1 in H2; simplify_eq ]
  end.

(** A response that carries an error code is no success. *)
Ltac no_success Hok :=
  let K := fresh "K" in
  pose proof (codes_ok_spec _ Hok) as K;
  repeat match goal with
  | H : Responded _ = Responded _ |- _ => injection H as H; subst
  end; cbn in *; exfalso; tauto.

(** A successful [Archive] went through every step. *)
Lemma Archive_success_inv (W : World) (service : ItemService) (c : Cache)
  (r : Response) :
  codes_ok (codes W) = true →
  outcome (Archive W service c) = Responded r →
  Code r = 0%Z →
  ∃ fs zipFile siteURL signedURI,
    NewFileSystemFromContext W = inl fs
    ∧ ArchiveDownloadEnabled fs = true
    ∧ fs_Compress fs (Dirs service) (Items service) = inl zipFile
    ∧ url_Parse W (GetSettingByName W "siteURL") = inl siteURL
    ∧ (SignURI W (archive_path (RandStringRunes W 16))
         (int64_add (time_Now_Unix W) 30)).1 = Some signedURI
    ∧ cache_fault W ("archive_" ++ RandStringRunes W 16) = None
    ∧ Archive W service c
      = MkRun
          (Next {| Code := 0;
                   Data := Some (URL_String W
                                   (ResolveReference W siteURL signedURI));
                   Msg := "" |})
          (cache_store (cache_clock W) ("archive_" ++ RandStringRunes W 16)
             zipFile 30 c)
          [ENewFileSystemFromContext;
           ECompress (Dirs service) (Items service);
           ESignURI (archive_path (RandStringRunes W 16))
             (int64_add (time_Now_Unix W) 30);
           ECacheSet ("archive_" ++ RandStringRunes W 16) zipFile 30 None].
Proof.
  intros Hok Hout Hcode.
  archive_cases W service c; unfold outcome in Hout; cbn in Hout;
    try discriminate; try (by no_success Hok).
  by exists fs, zipFile, siteURL, signedURI.
Qed.

(** ** Archive *)

(** C2: when the group of the acting user has [ArchiveDownloadEnabled] unset,
    [Archive] answers with the group refusal (code [CodeGroupNotAllowed], which
    is neither success nor the code of a failed operation), the only call made
    is the one that resolved the filesystem context, [Compress] is never
    invoked and the cache is left as it was. *)
Theorem Archive_group_not_allowed (W : World) (service : ItemService)
  (c : Cache) (fs : FileSystem) :
  codes_ok (codes W) = true →
  NewFileSystemFromContext W = inl fs →
  ArchiveDownloadEnabled fs = false →
  outcome (Archive W service c)
  = Responded (serializer_Err (CodeGroupNotAllowed (codes W))
                 "当前用户组无法进行此操作" None)
  ∧ CodeGroupNotAllowed (codes W) ≠ CodeNotSet (codes W)
  ∧ CodeGroupNotAllowed (codes W) ≠ 0%Z
  ∧ events (Archive W service c) = [ENewFileSystemFromContext]
  ∧ delegate_calls (events (Archive W service c)) = []
  ∧ store (Archive W service c) = c.
Proof.
  intros Hok Hfs Hflag.
  pose proof (codes_ok_spec _ Hok) as K.
  archive_cases W service c; simplify_eq; try congruence.
  repeat split; try reflexivity; tauto.
Qed.

Lemma Archive_group_not_allowed_witness :
  outcome (Archive group_denied (selection [1%N] [2%N]) ∅)
  = Responded {| Code := 40007; Data := None;
                 Msg := "当前用户组无法进行此操作" |}.
Proof.
  refine (proj1 (Archive_group_not_allowed group_denied _ _ (sample_fs false)
                   _ _ _)); reflexivity.
Defined.

(** C3, as the code has it: after a successful [Archive] the token has 16
    characters, the link is the one signed for the path that embeds the token,
    the cache write that succeeded was made under the key ["archive_"]
    followed by the token, and the cache, read right after the call, maps
    that key to the archive that [Compress] produced. *)
Theorem Archive_success_binds_token (W : World) (service : ItemService)
  (c : Cache) (r : Response) :
  codes_ok (codes W) = true →
  outcome (Archive W service c) = Responded r →
  Code r = 0%Z →
  ∃ fs zipFile siteURL signedURI,
    NewFileSystemFromContext W = inl fs
    ∧ fs_Compress fs (Dirs service) (Items service) = inl zipFile
    ∧ (16 ≤ String.length (RandStringRunes W 16))%nat
    ∧ (SignURI W (archive_path (RandStringRunes W 16))
         (int64_add (time_Now_Unix W) 30)).1 = Some signedURI
    ∧ Data r = Some (URL_String W (ResolveReference W siteURL signedURI))
    ∧ In (ECacheSet ("archive_" ++ RandStringRunes W 16) zipFile 30 None)
        (events (Archive W service c))
    ∧ cache_Get (cache_clock W) ("archive_" ++ RandStringRunes W 16)
        (store (Archive W service c)) = Some zipFile.
Proof.
  intros Hok Hout Hcode.
  destruct (Archive_success_inv W service c r Hok Hout Hcode)
    as (fs & zipFile & siteURL & signedURI & Hfs & _ & Hzip & _ & Hs & _ & Hrun).
  exists fs, zipFile, siteURL, signedURI.
  rewrite Hrun in Hout |- *. injection Hout as <-. cbn.
  split; [assumption|]. split; [assumption|].
  split; [by rewrite RandStringRunes_length|].
  split; [assumption|]. split; [reflexivity|].
  split; [do 3 right; by left|].
  rewrite cache_Get_store.
  by destruct (Z.ltb_spec (cache_clock W) (cache_clock W + 30)); [|lia].
Qed.

Lemma Archive_success_binds_token_witness :
  ∃ fs zipFile siteURL signedURI,
    NewFileSystemFromContext sunny = inl fs
    ∧ fs_Compress fs [1%N] [2%N] = inl zipFile
    ∧ (16 ≤ String.length (RandStringRunes sunny 16))%nat
    ∧ (SignURI sunny (archive_path (RandStringRunes sunny 16))
         (int64_add (time_Now_Unix sunny) 30)).1 = Some signedURI
    ∧ Some "https://pan.example.org/api/v3/file/archive/q7Xa0bR2mT9cZ4vK/archive.zip?sign=c2lnbg"
      = Some (URL_String sunny (ResolveReference sunny siteURL signedURI))
    ∧ In (ECacheSet ("archive_" ++ RandStringRunes sunny 16) zipFile 30 None)
        (events (Archive sunny (selection [1%N] [2%N]) ∅))
    ∧ cache_Get (cache_clock sunny) ("archive_" ++ RandStringRunes sunny 16)
        (store (Archive sunny (selection [1%N] [2%N]) ∅)) = Some zipFile.
Proof.
  refine (Archive_success_binds_token sunny (selection [1%N] [2%N]) ∅
            {| Code := 0;
               Data := Some "https://pan.example.org/api/v3/file/archive/q7Xa0bR2mT9cZ4vK/archive.zip?sign=c2lnbg";
               Msg := "" |} _ _ _); reflexivity.
Defined.

(** C3, as it is worded, fails: in the sample world [Archive] succeeds and
    hands out a link with the token [sample_token], yet the cache has no entry
    under that token; the entry is under the prefixed key. *)
Lemma Archive_token_is_not_a_cache_key :
  outcome (Archive sunny (selection [1%N] [2%N]) ∅)
  = Responded {| Code := 0;
                 Data := Some "https://pan.example.org/api/v3/file/archive/q7Xa0bR2mT9cZ4vK/archive.zip?sign=c2lnbg";
                 Msg := "" |}
  ∧ RandStringRunes sunny 16 = sample_token
  ∧ store (Archive sunny (selection [1%N] [2%N]) ∅) !! sample_token = None
  ∧ cache_Get (cache_clock sunny) sample_token
      (store (Archive sunny (selection [1%N] [2%N]) ∅)) = None
  ∧ cache_Get (cache_clock sunny) ("archive_" ++ sample_token)
      (store (Archive sunny (selection [1%N] [2%N]) ∅))
    = Some "/tmp/archive_7.zip".
Proof. repeat split; vm_compute; reflexivity. Qed.

(** C4: the error of [auth.SignURI] is never looked at.  When signing reports
    an error together with a nil link, [Archive] has compressed, then panics
    in [ResolveReference] and gives its caller no response at all; when
    signing reports an error together with a link, [Archive] answers with
    code 0 and that link. *)
Theorem Archive_sign_error_unchecked :
  (SignURI sign_error_nil (archive_path sample_token) 1600000030).2
  = Some "sign: invalid uri"
  ∧ Archive sign_error_nil (selection [1%N] [2%N]) ∅
    = MkRun Panic ∅
        [ENewFileSystemFromContext; ECompress [1%N] [2%N];
         ESignURI (archive_path sample_token) 1600000030]
  ∧ outcome (Archive sign_error_nil (selection [1%N] [2%N]) ∅) = Panicked
  ∧ (SignURI sign_error_link (archive_path sample_token) 1600000030).2
    = Some "sign: invalid uri"
  ∧ outcome (Archive sign_error_link (selection [1%N] [2%N]) ∅)
    = Responded {| Code := 0;
                   Data := Some "https://pan.example.org/api/v3/file/archive/q7Xa0bR2mT9cZ4vK/archive.zip?sign=c2lnbg";
                   Msg := "" |}.
Proof. repeat split; vm_compute; reflexivity. Qed.

(** C5: when the cache write of [Archive] reports an error, the response is
    the failure [CodeIOFailed] with a non-zero code and no data, so the caller
    gets no link, and nothing was stored. *)
Theorem Archive_cache_write_failure (W : World) (service : ItemService)
  (c : Cache) (key value : string) (ttl : Z) (err : error) :
  codes_ok (codes W) = true →
  In (ECacheSet key value ttl (Some err)) (events (Archive W service c)) →
  outcome (Archive W service c)
  = Responded (serializer_Err (CodeIOFailed (codes W)) "无法写入缓存"
                 (Some err))
  ∧ CodeIOFailed (codes W) ≠ 0%Z
  ∧ (∀ r, outcome (Archive W service c) = Responded r → Data r = None)
  ∧ store (Archive W service c) = c.
Proof.
  intros Hok Hin.
  pose proof (codes_ok_spec _ Hok) as K.
  archive_cases W service c; intuition (try discriminate); simplify_eq; done.
Qed.

Lemma Archive_cache_write_failure_witness :
  outcome (Archive cache_down (selection [1%N] [2%N]) ∅)
  = Responded {| Code := 50004; Data := None; Msg := "无法写入缓存" |}
  ∧ store (Archive cache_down (selection [1%N] [2%N]) ∅) = ∅.
Proof.
  pose proof (Archive_cache_write_failure cache_down (selection [1%N] [2%N]) ∅
                ("archive_" ++ sample_token) "/tmp/archive_7.zip" 30
                "cache: connection refused") as H.
  destruct H as (H1 & _ & _ & H4).
  - reflexivity.
  - vm_compute. auto.
  - split; [exact H1 | exact H4].
Defined.

(** C6: a successful [Archive] asked for a signature that expires 30 time-units
    after the time it read, and wrote the cache entry with a TTL of 30: the
    entry is there at every time before 30 units have passed since the write,
    and gone at every time after. *)
Theorem Archive_thirty_units (W : World) (service : ItemService) (c : Cache)
  (r : Response) :
  codes_ok (codes W) = true →
  (- 2 ^ 63 ≤ time_Now_Unix W + 30 < 2 ^ 63)%Z →
  outcome (Archive W service c) = Responded r →
  Code r = 0%Z →
  ∃ zipFile,
    In (ESignURI (archive_path (RandStringRunes W 16)) (time_Now_Unix W + 30))
      (events (Archive W service c))
    ∧ In (ECacheSet ("archive_" ++ RandStringRunes W 16) zipFile 30 None)
        (events (Archive W service c))
    ∧ (∀ t, (cache_clock W ≤ t < cache_clock W + 30)%Z →
         cache_Get t ("archive_" ++ RandStringRunes W 16)
           (store (Archive W service c)) = Some zipFile)
    ∧ (∀ t, (cache_clock W + 30 < t)%Z →
         cache_Get t ("archive_" ++ RandStringRunes W 16)
           (store (Archive W service c)) = None).
Proof.
  intros Hok Hnow Hout Hcode.
  destruct (Archive_success_inv W service c r Hok Hout Hcode)
    as (fs & zipFile & siteURL & signedURI & _ & _ & _ & _ & _ & _ & Hrun).
  exists zipFile. rewrite Hrun. cbn.
  rewrite (int64_add_exact _ _ Hnow).
  repeat split; auto.
  - intros t Ht. rewrite cache_Get_store.
    by destruct (Z.ltb_spec t (cache_clock W + 30)); [|lia].
  - intros t Ht. rewrite cache_Get_store.
    by destruct (Z.ltb_spec t (cache_clock W + 30)); [lia|].
Qed.

Lemma Archive_thirty_units_witness :
  cache_Get 1600000029 ("archive_" ++ sample_token)
    (store (Archive sunny (selection [1%N] [2%N]) ∅))
  = Some "/tmp/archive_7.zip"
  ∧ cache_Get 1600000031 ("archive_" ++ sample_token)
      (store (Archive sunny (selection [1%N] [2%N]) ∅)) = None.
Proof.
  destruct (Archive_thirty_units sunny (selection [1%N] [2%N]) ∅
              {| Code := 0;
                 Data := Some "https://pan.example.org/api/v3/file/archive/q7Xa0bR2mT9cZ4vK/archive.zip?sign=c2lnbg";
                 Msg := "" |})
    as (zipFile & _ & Hset & Hin & Hout).
  - reflexivity.
  - vm_compute. split; [discriminate | reflexivity].
  - reflexivity.
  - reflexivity.
  - assert (zipFile = "/tmp/archive_7.zip") as ->.
    { assert (cache_clock sunny ≤ 1600000029 < cache_clock sunny + 30)%Z
        as Ht by (cbn; lia).
      pose proof (Hin 1600000029%Z Ht) as H1.
      vm_compute in H1. congruence. }
    split; [apply Hin | apply Hout]; cbn; lia.
Defined.

(** C7: the data of a successful [Archive] is the site URL, parsed from the
    setting [siteURL], resolved against the link that [auth.SignURI] made for
    the path [/api/v3/file/archive/<token>/archive.zip], where the token is
    the string just drawn from [util.RandStringRunes]. *)
Theorem Archive_success_link (W : World) (service : ItemService) (c : Cache)
  (r : Response) :
  codes_ok (codes W) = true →
  outcome (Archive W service c) = Responded r →
  Code r = 0%Z →
  ∃ siteURL signedURI,
    url_Parse W (GetSettingByName W "siteURL") = inl siteURL
    ∧ (SignURI W
         ("/api/v3/file/archive/" ++ RandStringRunes W 16 ++ "/archive.zip")
         (int64_add (time_Now_Unix W) 30)).1 = Some signedURI
    ∧ In (ESignURI
            ("/api/v3/file/archive/" ++ RandStringRunes W 16 ++ "/archive.zip")
            (int64_add (time_Now_Unix W) 30))
        (events (Archive W service c))
    ∧ Data r = Some (URL_String W (ResolveReference W siteURL signedURI)).
Proof.
  intros Hok Hout Hcode.
  destruct (Archive_success_inv W service c r Hok Hout Hcode)
    as (fs & zipFile & siteURL & signedURI & _ & _ & _ & Hsite & Hs & _ & Hrun).
  exists siteURL, signedURI.
  rewrite Hrun in Hout |- *. injection Hout as <-. cbn.
  repeat split; auto.
Qed.

Lemma Archive_success_link_witness :
  ∃ siteURL signedURI,
    url_Parse sunny (GetSettingByName sunny "siteURL") = inl siteURL
    ∧ (SignURI sunny
         ("/api/v3/file/archive/" ++ RandStringRunes sunny 16 ++ "/archive.zip")
         (int64_add (time_Now_Unix sunny) 30)).1 = Some signedURI
    ∧ In (ESignURI
            ("/api/v3/file/archive/" ++ RandStringRunes sunny 16
             ++ "/archive.zip")
            (int64_add (time_Now_Unix sunny) 30))
        (events (Archive sunny (selection [1%N] [2%N]) ∅))
    ∧ Some "https://pan.example.org/api/v3/file/archive/q7Xa0bR2mT9cZ4vK/archive.zip?sign=c2lnbg"
      = Some (URL_String sunny (ResolveReference sunny siteURL signedURI)).
Proof.
  refine (Archive_success_link sunny (selection [1%N] [2%N]) ∅
            {| Code := 0;
               Data := Some "https://pan.example.org/api/v3/file/archive/q7Xa0bR2mT9cZ4vK/archive.zip?sign=c2lnbg";
               Msg := "" |} _ _ _); reflexivity.
Defined.

(** ** Delete, Move, Copy and Rename *)

(** C1, as the code has it: a selection of more than one object makes [Copy]
    and [Rename] answer with the parameter error at once; no filesystem
    context is resolved, the delegate is not invoked and the cache is left as
    it was. *)
Theorem Copy_Rename_reject_many (W : World) (c : Cache) (src : ItemService)
  (srcDir dst newName : string) :
  (len (Items src) + len (Dirs src) > 1)%Z →
  Copy W {| ItemMoveService.SrcDir := srcDir; ItemMoveService.Src := src;
            ItemMoveService.Dst := dst |} c
  = MkRun (Return (serializer_ParamErr (codes W) "只能复制一个对象" None)) c []
  ∧ Rename W {| ItemRenameService.Src := src;
                ItemRenameService.NewName := newName |} c
    = MkRun (Return (serializer_ParamErr (codes W) "只能操作一个对象" None)) c [].
Proof.
  intros H. run_handler.
  destruct (Z.gtb_spec (len (Items src) + len (Dirs src)) 1); [done|lia].
Qed.

Lemma Copy_Rename_reject_many_witness :
  outcome (Copy sunny (move_request [1%N; 2%N] [3%N]) ∅)
  = Responded {| Code := 40001; Data := None; Msg := "只能复制一个对象" |}
  ∧ delegate_calls (events (Copy sunny (move_request [1%N; 2%N] [3%N]) ∅)) = []
  ∧ outcome (Rename sunny (rename_request [1%N; 2%N] [3%N]) ∅)
    = Responded {| Code := 40001; Data := None; Msg := "只能操作一个对象" |}
  ∧ delegate_calls (events (Rename sunny (rename_request [1%N; 2%N] [3%N]) ∅))
    = [].
Proof.
  destruct (Copy_Rename_reject_many sunny ∅ (selection [1%N; 2%N] [3%N])
              "/a" "/b" "report.pdf") as [HC HR].
  - reflexivity.
  - unfold move_request, rename_request. rewrite HC, HR.
    repeat split; reflexivity.
Defined.

(** C1, as it is worded, fails on the empty selection: its cardinality is not
    1, yet [Copy] and [Rename] resolve the filesystem context, invoke the
    delegate with two empty lists and answer with code 0. *)
Lemma Copy_Rename_accept_empty_selection :
  (len (Items (selection [] [])) + len (Dirs (selection [] [])) ≠ 1)%Z
  ∧ Copy sunny (move_request [] []) ∅
    = MkRun (Next {| Code := 0; Data := None; Msg := "" |}) ∅
        [ENewFileSystemFromContext; ECopy [] [] "/a" "/b"]
  ∧ delegate_calls (events (Copy sunny (move_request [] []) ∅))
    = [ECopy [] [] "/a" "/b"]
  ∧ Rename sunny (rename_request [] []) ∅
    = MkRun (Next {| Code := 0; Data := None; Msg := "" |}) ∅
        [ENewFileSystemFromContext; ERename [] [] "report.pdf"]
  ∧ delegate_calls (events (Rename sunny (rename_request [] []) ∅))
    = [ERename [] [] "report.pdf"].
Proof. repeat split; try reflexivity. vm_compute. discriminate. Qed.

(** C8: once the filesystem context is resolved, [Delete] and [Move] make
    exactly one delegate call, with the directory and file identifiers of the
    request as they came, however many there are, and with the two paths for
    [Move]; when the delegate reports no error the response is code 0 with no
    data. *)
Theorem Delete_Move_forward (W : World) (c : Cache) (fs : FileSystem)
  (dirs items : list uint) (srcDir dst : string) :
  NewFileSystemFromContext W = inl fs →
  (events (Delete W {| Items := items; Dirs := dirs |} c)
   = [ENewFileSystemFromContext; EDelete dirs items]
   ∧ (fs_Delete fs dirs items = None →
      outcome (Delete W {| Items := items; Dirs := dirs |} c)
      = Responded {| Code := 0; Data := None; Msg := "" |}))
  ∧ (events (Move W {| ItemMoveService.SrcDir := srcDir;
                       ItemMoveService.Src := {| Items := items; Dirs := dirs |};
                       ItemMoveService.Dst := dst |} c)
     = [ENewFileSystemFromContext; EMove dirs items srcDir dst]
     ∧ (fs_Move fs dirs items srcDir dst = None →
        outcome (Move W {| ItemMoveService.SrcDir := srcDir;
                           ItemMoveService.Src :=
                             {| Items := items; Dirs := dirs |};
                           ItemMoveService.Dst := dst |} c)
        = Responded {| Code := 0; Data := None; Msg := "" |})).
Proof.
  intros Hfs. run_handler. rewrite Hfs. cbn.
  split; split.
  - by destruct (fs_Delete fs dirs items).
  - by intros ->.
  - by destruct (fs_Move fs dirs items srcDir dst).
  - by intros ->.
Qed.

Lemma Delete_Move_forward_witness :
  (events (Delete sunny (selection [4%N; 5%N] [6%N; 7%N; 8%N]) ∅)
   = [ENewFileSystemFromContext; EDelete [4%N; 5%N] [6%N; 7%N; 8%N]]
   ∧ outcome (Delete sunny (selection [4%N; 5%N] [6%N; 7%N; 8%N]) ∅)
     = Responded {| Code := 0; Data := None; Msg := "" |})
  ∧ (events (Move sunny (move_request [4%N; 5%N] [6%N; 7%N; 8%N]) ∅)
     = [ENewFileSystemFromContext;
        EMove [4%N; 5%N] [6%N; 7%N; 8%N] "/a" "/b"]
     ∧ outcome (Move sunny (move_request [4%N; 5%N] [6%N; 7%N; 8%N]) ∅)
       = Responded {| Code := 0; Data := None; Msg := "" |}).
Proof.
  destruct (Delete_Move_forward sunny ∅ (sample_fs true) [4%N; 5%N]
              [6%N; 7%N; 8%N] "/a" "/b") as [[HD1 HD2] [HM1 HM2]].
  - reflexivity.
  - split; split.
    + exact HD1.
    + apply HD2. reflexivity.
    + exact HM1.
    + apply HM2. reflexivity.
Defined.

(** C9, as the code has it: the order of the steps of each handler.
    [Archive] resolves the filesystem context first (a failure ends the run
    there), then tests the capability flag (a refusal ends the run with no
    delegate call), then calls [Compress].  [Delete] and [Move] resolve the
    context first and then make their delegate call.  [Copy] and [Rename]
    count the selection first (more than one object ends the run with the
    parameter error and no call at all, whether or not the context could be
    resolved), then resolve the context, then make their delegate call. *)
Theorem handlers_step_order (W : World) (c : Cache) (sel : ItemService)
  (mv : ItemMoveService.t) (rn : ItemRenameService.t) :
  match NewFileSystemFromContext W with
  | inr err => Archive W sel c = context_error W c err
  | inl fs =>
      if ArchiveDownloadEnabled fs
      then ∃ rest,
             events (Archive W sel c)
             = ENewFileSystemFromContext
               :: ECompress (Dirs sel) (Items sel) :: rest
      else Archive W sel c
           = MkRun (Return (serializer_Err (CodeGroupNotAllowed (codes W))
                              "当前用户组无法进行此操作" None))
               c [ENewFileSystemFromContext]
  end
  ∧ Delete W sel c
    = match NewFileSystemFromContext W with
      | inr err => context_error W c err
      | inl fs =>
          delegated W c (EDelete (Dirs sel) (Items sel))
            (fs_Delete fs (Dirs sel) (Items sel))
      end
  ∧ Move W mv c
    = match NewFileSystemFromContext W with
      | inr err => context_error W c err
      | inl fs =>
          delegated W c
            (EMove (Dirs (ItemMoveService.Src mv))
               (Items (ItemMoveService.Src mv))
               (ItemMoveService.SrcDir mv) (ItemMoveService.Dst mv))
            (fs_Move fs (Dirs (ItemMoveService.Src mv))
               (Items (ItemMoveService.Src mv))
               (ItemMoveService.SrcDir mv) (ItemMoveService.Dst mv))
      end
  ∧ Copy W mv c
    = (if (len (Items (ItemMoveService.Src mv))
           + len (Dirs (ItemMoveService.Src mv)) >? 1)%Z
       then MkRun (Return (serializer_ParamErr (codes W) "只能复制一个对象"
                             None)) c []
       else match NewFileSystemFromContext W with
            | inr err => context_error W c err
            | inl fs =>
                delegated W c
                  (ECopy (Dirs (ItemMoveService.Src mv))
                     (Items (ItemMoveService.Src mv))
                     (ItemMoveService.SrcDir mv) (ItemMoveService.Dst mv))
                  (fs_Copy fs (Dirs (ItemMoveService.Src mv))
                     (Items (ItemMoveService.Src mv))
                     (ItemMoveService.SrcDir mv) (ItemMoveService.Dst mv))
            end)
  ∧ Rename W rn c
    = (if (len (Items (ItemRenameService.Src rn))
           + len (Dirs (ItemRenameService.Src rn)) >? 1)%Z
       then MkRun (Return (serializer_ParamErr (codes W) "只能操作一个对象"
                             None)) c []
       else match NewFileSystemFromContext W with
            | inr err => context_error W c err
            | inl fs =>
                delegated W c
                  (ERename (Dirs (ItemRenameService.Src rn))
                     (Items (ItemRenameService.Src rn))
                     (ItemRenameService.NewName rn))
                  (fs_Rename fs (Dirs (ItemRenameService.Src rn))
                     (Items (ItemRenameService.Src rn))
                     (ItemRenameService.NewName rn))
            end).
Proof.
  split.
  { pose proof (Archive_run W sel c) as Hrun.
    destruct (NewFileSystemFromContext W) as [fs|err] eqn:Hfs;
      [destruct (ArchiveDownloadEnabled fs) eqn:Hflag|];
      inversion Hrun; same_answers; try congruence.
    all: try match goal with
             | HR : MkRun _ _ _ = Archive _ _ _ |- _ => rewrite <- HR
             end.
    all: first [reflexivity | by eexists]. }
  unfold context_error, delegated. run_handler.
  repeat apply conj.
  - destruct (NewFileSystemFromContext W) as [fs|err]; cbn; [|done].
    by destruct (fs_Delete fs _ _).
  - destruct (NewFileSystemFromContext W) as [fs|err]; cbn; [|done].
    by destruct (fs_Move fs _ _ _ _).
  - destruct (_ >? 1)%Z; cbn; [done|].
    destruct (NewFileSystemFromContext W) as [fs|err]; cbn; [|done].
    by destruct (fs_Copy fs _ _ _ _).
  - destruct (_ >? 1)%Z; cbn; [done|].
    destruct (NewFileSystemFromContext W) as [fs|err]; cbn; [|done].
    by destruct (fs_Rename fs _ _ _).
Qed.

Lemma handlers_step_order_witness :
  Archive group_denied (selection [1%N; 2%N] [3%N]) ∅
  = MkRun (Return {| Code := 40007; Data := None;
                     Msg := "当前用户组无法进行此操作" |})
      ∅ [ENewFileSystemFromContext]
  ∧ Delete sunny (selection [1%N; 2%N] [3%N]) ∅
    = MkRun (Next {| Code := 0; Data := None; Msg := "" |}) ∅
        [ENewFileSystemFromContext; EDelete [1%N; 2%N] [3%N]]
  ∧ Copy no_context (move_request [] [3%N]) ∅
    = MkRun (Return {| Code := 40006; Data := None;
                       Msg := "object not exist" |})
        ∅ [ENewFileSystemFromContext]
  ∧ Rename no_context (rename_request [1%N; 2%N] [3%N]) ∅
    = MkRun (Return {| Code := 40001; Data := None;
                       Msg := "只能操作一个对象" |}) ∅ [].
Proof.
  split; [|split; [|split]].
  - exact (proj1 (handlers_step_order group_denied ∅
                    (selection [1%N; 2%N] [3%N]) (move_request [] [])
                    (rename_request [] []))).
  - exact (proj1 (proj2 (handlers_step_order sunny ∅
                           (selection [1%N; 2%N] [3%N]) (move_request [] [])
                           (rename_request [] [])))).
  - exact (proj1 (proj2 (proj2 (proj2
             (handlers_step_order no_context ∅ (selection [] [])
                (move_request [] [3%N]) (rename_request [] [])))))).
  - exact (proj2 (proj2 (proj2 (proj2
             (handlers_step_order no_context ∅ (selection [] [])
                (move_request [] [])
                (rename_request [1%N; 2%N] [3%N])))))).
Defined.

(** C9, as it is worded, fails: with a context that cannot be resolved and a
    selection of three objects, [Copy] and [Rename] answer with the parameter
    error, not with the context error, and have not tried to resolve the
    context. *)
Lemma Copy_Rename_validate_before_context :
  NewFileSystemFromContext no_context = inr "object not exist"
  ∧ (len (Items (selection [1%N; 2%N] [3%N]))
     + len (Dirs (selection [1%N; 2%N] [3%N])) ≠ 1)%Z
  ∧ outcome (Copy no_context (move_request [1%N; 2%N] [3%N]) ∅)
    = Responded {| Code := 40001; Data := None; Msg := "只能复制一个对象" |}
  ∧ outcome (Copy no_context (move_request [1%N; 2%N] [3%N]) ∅)
    ≠ Responded (serializer_Err (CodePolicyNotAllowed (codes no_context))
                   "object not exist" (Some "object not exist"))
  ∧ events (Copy no_context (move_request [1%N; 2%N] [3%N]) ∅) = []
  ∧ outcome (Rename no_context (rename_request [1%N; 2%N] [3%N]) ∅)
    = Responded {| Code := 40001; Data := None; Msg := "只能操作一个对象" |}
  ∧ outcome (Rename no_context (rename_request [1%N; 2%N] [3%N]) ∅)
    ≠ Responded (serializer_Err (CodePolicyNotAllowed (codes no_context))
                   "object not exist" (Some "object not exist"))
  ∧ events (Rename no_context (rename_request [1%N; 2%N] [3%N]) ∅) = [].
Proof. repeat split; try reflexivity; vm_compute; discriminate. Qed.

(** C10: [Delete] and [Move] do not look at the size of the selection.  For
    the empty selection, once the filesystem context is resolved, they invoke
    the delegate with two empty lists, and the response is what the delegate's
    answer makes it: code 0, or the failed operation with the delegate's
    message; it is never the parameter error. *)
Theorem Delete_Move_empty_selection (W : World) (c : Cache) (fs : FileSystem)
  (srcDir dst : string) :
  codes_ok (codes W) = true →
  NewFileSystemFromContext W = inl fs →
  (Delete W {| Items := []; Dirs := [] |} c
   = MkRun
       match fs_Delete fs [] [] with
       | None => Next {| Code := 0; Data := None; Msg := "" |}
       | Some err =>
           Return (serializer_Err (CodeNotSet (codes W)) err (Some err))
       end
       c [ENewFileSystemFromContext; EDelete [] []]
   ∧ delegate_calls (events (Delete W {| Items := []; Dirs := [] |} c))
     = [EDelete [] []]
   ∧ ∀ msg e, outcome (Delete W {| Items := []; Dirs := [] |} c)
              ≠ Responded (serializer_ParamErr (codes W) msg e))
  ∧ (Move W {| ItemMoveService.SrcDir := srcDir;
               ItemMoveService.Src := {| Items := []; Dirs := [] |};
               ItemMoveService.Dst := dst |} c
     = MkRun
         match fs_Move fs [] [] srcDir dst with
         | None => Next {| Code := 0; Data := None; Msg := "" |}
         | Some err =>
             Return (serializer_Err (CodeNotSet (codes W)) err (Some err))
         end
         c [ENewFileSystemFromContext; EMove [] [] srcDir dst]
     ∧ delegate_calls
         (events (Move W {| ItemMoveService.SrcDir := srcDir;
                            ItemMoveService.Src := {| Items := []; Dirs := [] |};
                            ItemMoveService.Dst := dst |} c))
       = [EMove [] [] srcDir dst]
     ∧ ∀ msg e,
         outcome (Move W {| ItemMoveService.SrcDir := srcDir;
                            ItemMoveService.Src := {| Items := []; Dirs := [] |};
                            ItemMoveService.Dst := dst |} c)
         ≠ Responded (serializer_ParamErr (codes W) msg e)).
Proof.
  intros Hok Hfs.
  destruct (codes_ok_spec _ Hok) as (_ & _ & _ & _ & Hp0 & _ & Hpn & _).
  run_handler. rewrite Hfs. cbn.
  split.
  - destruct (fs_Delete fs [] []); cbn; repeat split; try done;
      intros msg perr; unfold outcome, serializer_ParamErr, serializer_Err;
      cbn; intros [= Hc _]; congruence.
  - destruct (fs_Move fs [] [] srcDir dst); cbn; repeat split; try done;
      intros msg perr; unfold outcome, serializer_ParamErr, serializer_Err;
      cbn; intros [= Hc _]; congruence.
Qed.

Lemma Delete_Move_empty_selection_witness :
  Delete sunny (selection [] []) ∅
  = MkRun (Next {| Code := 0; Data := None; Msg := "" |}) ∅
      [ENewFileSystemFromContext; EDelete [] []]
  ∧ Move sunny (move_request [] []) ∅
    = MkRun (Next {| Code := 0; Data := None; Msg := "" |}) ∅
        [ENewFileSystemFromContext; EMove [] [] "/a" "/b"].
Proof.
  destruct (Delete_Move_empty_selection sunny ∅ (sample_fs true) "/a" "/b")
    as [[HD _] [HM _]].
  - reflexivity.
  - reflexivity.
  - split; [exact HD | exact HM].
Defined.

(** * Further properties of the handlers *)

(** ** Copy and Rename on at most one object *)

(** X1: with the filesystem context resolved and at most one object selected,
    [Copy] and [Rename] make exactly one delegate call, with the identifiers
    of the request as they came and the two paths or the new name; when the
    delegate reports no error the response is code 0 with no data. *)
Theorem Copy_Rename_single_forward (W : World) (c : Cache) (fs : FileSystem)
  (src : ItemService) (srcDir dst newName : string) :
  NewFileSystemFromContext W = inl fs →
  (len (Items src) + len (Dirs src) ≤ 1)%Z →
  (events (Copy W {| ItemMoveService.SrcDir := srcDir;
                     ItemMoveService.Src := src;
                     ItemMoveService.Dst := dst |} c)
   = [ENewFileSystemFromContext; ECopy (Dirs src) (Items src) srcDir dst]
   ∧ (fs_Copy fs (Dirs src) (Items src) srcDir dst = None →
      outcome (Copy W {| ItemMoveService.SrcDir := srcDir;
                         ItemMoveService.Src := src;
                         ItemMoveService.Dst := dst |} c)
      = Responded {| Code := 0; Data := None; Msg := "" |}))
  ∧ (events (Rename W {| ItemRenameService.Src := src;
                         ItemRenameService.NewName := newName |} c)
     = [ENewFileSystemFromContext; ERename (Dirs src) (Items src) newName]
     ∧ (fs_Rename fs (Dirs src) (Items src) newName = None →
        outcome (Rename W {| ItemRenameService.Src := src;
                             ItemRenameService.NewName := newName |} c)
        = Responded {| Code := 0; Data := None; Msg := "" |})).
Proof.
  intros Hfs Hlen. run_handler.
  destruct (Z.gtb_spec (len (Items src) + len (Dirs src)) 1); [lia|].
  cbn. rewrite Hfs. cbn.
  split; split.
  - by destruct (fs_Copy fs (Dirs src) (Items src) srcDir dst).
  - by intros ->.
  - by destruct (fs_Rename fs (Dirs src) (Items src) newName).
  - by intros ->.
Qed.

Lemma Copy_Rename_single_forward_witness :
  (events (Copy sunny (move_request [] [42%N]) ∅)
   = [ENewFileSystemFromContext; ECopy [] [42%N] "/a" "/b"]
   ∧ outcome (Copy sunny (move_request [] [42%N]) ∅)
     = Responded {| Code := 0; Data := None; Msg := "" |})
  ∧ (events (Rename sunny (rename_request [] [42%N]) ∅)
     = [ENewFileSystemFromContext; ERename [] [42%N] "report.pdf"]
     ∧ outcome (Rename sunny (rename_request [] [42%N]) ∅)
       = Responded {| Code := 0; Data := None; Msg := "" |}).
Proof.
  destruct (Copy_Rename_single_forward sunny ∅ (sample_fs true)
              (selection [] [42%N]) "/a" "/b" "report.pdf")
    as [[HC1 HC2] [HR1 HR2]].
  - reflexivity.
  - vm_compute. discriminate.
  - split; split.
    + exact HC1.
    + apply HC2. reflexivity.
    + exact HR1.
    + apply HR2. reflexivity.
Defined.

(** ** What a failing delegate gives, and what the four mutations never do *)

(** X2: when the delegate reports an error, [Delete], [Move], [Copy] and
    [Rename] answer with [CodeNotSet], pass the delegate's own message on as
    the message of the response, and attach no data; [Copy] and [Rename] get
    that far only for at most one object. *)
Theorem delegate_error_passed_on (W : World) (c : Cache) (fs : FileSystem)
  (src : ItemService) (srcDir dst newName : string) (err : error) :
  NewFileSystemFromContext W = inl fs →
  (fs_Delete fs (Dirs src) (Items src) = Some err →
   outcome (Delete W src c)
   = Responded {| Code := CodeNotSet (codes W); Data := None; Msg := err |})
  ∧ (fs_Move fs (Dirs src) (Items src) srcDir dst = Some err →
     outcome (Move W {| ItemMoveService.SrcDir := srcDir;
                        ItemMoveService.Src := src;
                        ItemMoveService.Dst := dst |} c)
     = Responded {| Code := CodeNotSet (codes W); Data := None; Msg := err |})
  ∧ (fs_Copy fs (Dirs src) (Items src) srcDir dst = Some err →
     (len (Items src) + len (Dirs src) ≤ 1)%Z →
     outcome (Copy W {| ItemMoveService.SrcDir := srcDir;
                        ItemMoveService.Src := src;
                        ItemMoveService.Dst := dst |} c)
     = Responded {| Code := CodeNotSet (codes W); Data := None; Msg := err |})
  ∧ (fs_Rename fs (Dirs src) (Items src) newName = Some err →
     (len (Items src) + len (Dirs src) ≤ 1)%Z →
     outcome (Rename W {| ItemRenameService.Src := src;
                          ItemRenameService.NewName := newName |} c)
     = Responded {| Code := CodeNotSet (codes W); Data := None; Msg := err |}).
Proof.
  intros Hfs. destruct src as [items dirs]. run_handler.
  repeat apply conj.
  - intros He. by rewrite Hfs; cbn; rewrite He.
  - intros He. by rewrite Hfs; cbn; rewrite He.
  - intros He Hlen.
    destruct (Z.gtb_spec (len items + len dirs) 1); [lia|].
    cbn. by rewrite Hfs; cbn; rewrite He.
  - intros He Hlen.
    destruct (Z.gtb_spec (len items + len dirs) 1); [lia|].
    cbn. by rewrite Hfs; cbn; rewrite He.
Qed.

Lemma delegate_error_passed_on_witness :
  outcome (Delete disk_full (selection [4%N] [5%N; 6%N]) ∅)
  = Responded {| Code := -1; Data := None; Msg := "disk full" |}
  ∧ outcome (Rename disk_full (rename_request [] [42%N]) ∅)
    = Responded {| Code := -1; Data := None; Msg := "disk full" |}.
Proof.
  split.
  - refine (proj1 (delegate_error_passed_on disk_full ∅ broken_fs
                     (selection [4%N] [5%N; 6%N]) "/a" "/b" "report.pdf"
                     "disk full" _) _); reflexivity.
  - refine (proj2 (proj2 (proj2
             (delegate_error_passed_on disk_full ∅ broken_fs
                (selection [] [42%N]) "/a" "/b" "report.pdf" "disk full" _)))
             _ _); [reflexivity | reflexivity | vm_compute; discriminate].
Defined.

(** X3: whatever the world does, [Delete], [Move], [Copy] and [Rename] answer
    (they never panic) with a response that carries no data, leave the cache
    exactly as it was, never sign a link and never write to the cache, and
    call the delegate at most once. *)
Theorem mutations_are_quiet (W : World) (c : Cache) (sel : ItemService)
  (mv : ItemMoveService.t) (rn : ItemRenameService.t) :
  quiet_run c (Delete W sel c)
  ∧ quiet_run c (Move W mv c)
  ∧ quiet_run c (Copy W mv c)
  ∧ quiet_run c (Rename W rn c).
Proof.
  unfold quiet_run, outcome. run_handler.
  repeat apply conj;
    repeat match goal with
    | |- context [(?a >? ?b)%Z] => destruct (a >? b)%Z; cbn
    | |- context [NewFileSystemFromContext W] =>
        destruct (NewFileSystemFromContext W) as [fs|err]; cbn
    | |- context [fs_Delete ?f ?d ?i] => destruct (fs_Delete f d i); cbn
    | |- context [fs_Move ?f ?d ?i ?x ?y] => destruct (fs_Move f d i x y); cbn
    | |- context [fs_Copy ?f ?d ?i ?x ?y] => destruct (fs_Copy f d i x y); cbn
    | |- context [fs_Rename ?f ?d ?i ?n] => destruct (fs_Rename f d i n); cbn
    end;
    try reflexivity; try lia; eauto.
Qed.

(** ** Archive: the failure paths *)

(** X4: when [Compress] reports an error, [Archive] answers with [CodeNotSet]
    and the fixed message, having called nothing but the context resolution
    and [Compress]: no link is signed and the cache is neither written nor
    changed. *)
Theorem Archive_compress_failure (W : World) (service : ItemService)
  (c : Cache) (fs : FileSystem) (err : error) :
  NewFileSystemFromContext W = inl fs →
  ArchiveDownloadEnabled fs = true →
  fs_Compress fs (Dirs service) (Items service) = inr err →
  Archive W service c
  = MkRun (Return {| Code := CodeNotSet (codes W); Data := None;
                     Msg := "无法创建压缩文件" |})
      c [ENewFileSystemFromContext; ECompress (Dirs service) (Items service)].
Proof.
  intros Hfs Hflag Hzip.
  archive_cases W service c; simplify_eq; try congruence; reflexivity.
Qed.

Lemma Archive_compress_failure_witness :
  Archive disk_full (selection [1%N] [2%N]) ∅
  = MkRun (Return {| Code := -1; Data := None; Msg := "无法创建压缩文件" |})
      ∅ [ENewFileSystemFromContext; ECompress [1%N] [2%N]].
Proof.
  refine (Archive_compress_failure disk_full (selection [1%N] [2%N]) ∅
            broken_fs "disk full" _ _ _); reflexivity.
Defined.

(** X5: when the [siteURL] setting does not parse, [Archive] has already
    compressed: it answers with [CodeNotSet] and the fixed message after the
    [Compress] call, signs nothing and leaves the cache alone, so the archive
    just made is bound to no token. *)
Theorem Archive_site_url_failure (W : World) (service : ItemService)
  (c : Cache) (fs : FileSystem) (zipFile : string) (err : error) :
  NewFileSystemFromContext W = inl fs →
  ArchiveDownloadEnabled fs = true →
  fs_Compress fs (Dirs service) (Items service) = inl zipFile →
  url_Parse W (GetSettingByName W "siteURL") = inr err →
  Archive W service c
  = MkRun (Return {| Code := CodeNotSet (codes W); Data := None;
                     Msg := "无法解析站点URL" |})
      c [ENewFileSystemFromContext; ECompress (Dirs service) (Items service)].
Proof.
  intros Hfs Hflag Hzip Hsite.
  archive_cases W service c; simplify_eq; try congruence; reflexivity.
Qed.

Lemma Archive_site_url_failure_witness :
  Archive bad_site (selection [1%N] [2%N]) ∅
  = MkRun (Return {| Code := -1; Data := None; Msg := "无法解析站点URL" |})
      ∅ [ENewFileSystemFromContext; ECompress [1%N] [2%N]].
Proof.
  refine (Archive_site_url_failure bad_site (selection [1%N] [2%N]) ∅
            (sample_fs true) "/tmp/archive_7.zip"
            "parse ://: missing protocol scheme" _ _ _ _); reflexivity.
Defined.

Lemma Archive_other_keys (W : World) (service : ItemService) (c : Cache)
  (k : string) :
  k ≠ "archive_" ++ RandStringRunes W 16 →
  store (Archive W service c) !! k = c !! k.
Proof.
  intros Hk. archive_cases W service c; try done.
  unfold cache_store. by rewrite lookup_insert_ne.
Qed.

(** X6: [Archive] touches at most one cache key: every key other than
    ["archive_"] followed by the token reads after the call as before it; and
    a call that panics, or answers without data, leaves the whole cache as it
    was. *)
Theorem Archive_cache_frame (W : World) (service : ItemService) (c : Cache) :
  (∀ k, k ≠ "archive_" ++ RandStringRunes W 16 →
        store (Archive W service c) !! k = c !! k)
  ∧ (outcome (Archive W service c) = Panicked →
     store (Archive W service c) = c)
  ∧ (∀ r, outcome (Archive W service c) = Responded r → Data r = None →
          store (Archive W service c) = c).
Proof.
  split; [intros k Hk; by apply Archive_other_keys|].
  archive_cases W service c; repeat apply conj; try done.
  unfold outcome. cbn. intros r [= <-]. discriminate.
Qed.

(** X7: [Archive] makes at most one delegate call, and it is [Compress] on
    the directories and files of the request: archiving never deletes, moves,
    copies or renames. *)
Theorem Archive_only_compresses (W : World) (service : ItemService)
  (c : Cache) :
  delegate_calls (events (Archive W service c)) = []
  ∨ delegate_calls (events (Archive W service c))
    = [ECompress (Dirs service) (Items service)].
Proof.
  archive_cases W service c; cbn; auto.
Qed.

Lemma Archive_cache_frame_witness :
  store (Archive sunny (selection [1%N] [2%N])
           (cache_store 1599999990 "archive_OLDTOKEN00000000"
              "/tmp/archive_6.zip" 30 ∅))
    !! "archive_OLDTOKEN00000000"
  = Some {| item_value := "/tmp/archive_6.zip"; item_expires := 1600000020 |}.
Proof.
  rewrite (proj1 (Archive_cache_frame sunny (selection [1%N] [2%N])
                    (cache_store 1599999990 "archive_OLDTOKEN00000000"
                       "/tmp/archive_6.zip" 30 ∅))
             "archive_OLDTOKEN00000000").
  - reflexivity.
  - vm_compute. discriminate.
Defined.

(** ** Archive: signing and delivery *)

(** X8: the error that [auth.SignURI] returns has no influence whatsoever on
    [Archive]: two worlds that differ only in that error give the same
    response, the same cache and the same calls. *)
Theorem Archive_ignores_sign_error (W : World)
  (sign : string → Z → option URL * option error) (service : ItemService)
  (c : Cache) :
  (∀ uri expires, (sign uri expires).1 = (SignURI W uri expires).1) →
  Archive (with_SignURI W sign) service c = Archive W service c.
Proof.
  intros Hsame. run_handler.
  destruct (NewFileSystemFromContext W) as [fs|err]; cbn; [|done].
  destruct (ArchiveDownloadEnabled fs); cbn; [|done].
  destruct (fs_Compress fs (Dirs service) (Items service)); cbn; [|done].
  destruct (url_Parse W (GetSettingByName W "siteURL")); cbn; [|done].
  by rewrite Hsame.
Qed.

Lemma Archive_ignores_sign_error_witness :
  Archive (with_SignURI sunny
             (λ uri expires,
                (Some (sample_sign uri expires), Some "sign: invalid uri")))
    (selection [1%N] [2%N]) ∅
  = Archive sunny (selection [1%N] [2%N]) ∅.
Proof.
  apply (Archive_ignores_sign_error sunny). intros uri expires. reflexivity.
Defined.

(** X9: [Archive] panics exactly when it got as far as signing (context
    resolved, group allowed, compression done, site URL parsed) and
    [auth.SignURI] handed back a nil link: those conditions make it panic, and
    nothing else does.  A run that panics has compressed and asked for the
    signature, and has not written the cache. *)
Theorem Archive_panics_iff (W : World) (service : ItemService) (c : Cache) :
  (outcome (Archive W service c) = Panicked
   ↔ ∃ fs zipFile siteURL,
       NewFileSystemFromContext W = inl fs
       ∧ ArchiveDownloadEnabled fs = true
       ∧ fs_Compress fs (Dirs service) (Items service) = inl zipFile
       ∧ url_Parse W (GetSettingByName W "siteURL") = inl siteURL
       ∧ (SignURI W (archive_path (RandStringRunes W 16))
            (int64_add (time_Now_Unix W) 30)).1 = None)
  ∧ (outcome (Archive W service c) = Panicked →
     Archive W service c
     = MkRun Panic c
         [ENewFileSystemFromContext;
          ECompress (Dirs service) (Items service);
          ESignURI (archive_path (RandStringRunes W 16))
            (int64_add (time_Now_Unix W) 30)]).
Proof.
  split; [split|].
  - intros Hout.
    archive_cases W service c; unfold outcome in Hout; cbn in Hout;
      try discriminate.
    by exists fs, zipFile, siteURL.
  - intros (fs & zipFile & siteURL & Hfs & Hflag & Hzip & Hsite & Hsign).
    archive_cases W service c; same_answers; try congruence; reflexivity.
  - intros Hout.
    archive_cases W service c; unfold outcome in Hout; cbn in Hout;
      try discriminate.
    reflexivity.
Qed.

Lemma Archive_panics_iff_witness :
  outcome (Archive sign_error_nil (selection [1%N] [2%N]) ∅) = Panicked.
Proof.
  apply (proj1 (Archive_panics_iff sign_error_nil (selection [1%N] [2%N]) ∅)).
  exists (sample_fs true), "/tmp/archive_7.zip", sample_site.
  repeat apply conj; reflexivity.
Defined.

(** X10: when every collaborator does its work, [Archive] delivers: the
    response is code 0 with the resolved link, the cache holds the archive
    under ["archive_"] followed by the token with an expiry 30 units after the
    cache's clock, and the calls were, in this order, the context resolution,
    [Compress], [SignURI] and the cache write. *)
Theorem Archive_delivers (W : World) (service : ItemService) (c : Cache)
  (fs : FileSystem) (zipFile : string) (siteURL signedURI : URL) :
  NewFileSystemFromContext W = inl fs →
  ArchiveDownloadEnabled fs = true →
  fs_Compress fs (Dirs service) (Items service) = inl zipFile →
  url_Parse W (GetSettingByName W "siteURL") = inl siteURL →
  (SignURI W (archive_path (RandStringRunes W 16))
     (int64_add (time_Now_Unix W) 30)).1 = Some signedURI →
  cache_fault W ("archive_" ++ RandStringRunes W 16) = None →
  outcome (Archive W service c)
  = Responded {| Code := 0;
                 Data := Some (URL_String W
                                 (ResolveReference W siteURL signedURI));
                 Msg := "" |}
  ∧ store (Archive W service c)
    = <["archive_" ++ RandStringRunes W 16 :=
          {| item_value := zipFile;
             item_expires := (cache_clock W + 30)%Z |}]> c
  ∧ events (Archive W service c)
    = [ENewFileSystemFromContext;
       ECompress (Dirs service) (Items service);
       ESignURI (archive_path (RandStringRunes W 16))
         (int64_add (time_Now_Unix W) 30);
       ECacheSet ("archive_" ++ RandStringRunes W 16) zipFile 30 None].
Proof.
  intros Hfs Hflag Hzip Hsite Hsign Hcache.
  archive_cases W service c; try congruence.
  same_answers. repeat apply conj; reflexivity.
Qed.

Lemma Archive_delivers_witness :
  outcome (Archive sunny (selection [1%N] [2%N]) ∅)
  = Responded {| Code := 0;
                 Data := Some "https://pan.example.org/api/v3/file/archive/q7Xa0bR2mT9cZ4vK/archive.zip?sign=c2lnbg";
                 Msg := "" |}.
Proof.
  refine (proj1 (Archive_delivers sunny (selection [1%N] [2%N]) ∅
                   (sample_fs true) "/tmp/archive_7.zip" sample_site
                   (sample_sign (archive_path sample_token) 1600000030)
                   _ _ _ _ _ _)); reflexivity.
Defined.

(** X11: [Archive] fails closed without any assumption on the error codes:
    whenever its response carries data, the code is 0, the cache write was
    made and succeeded, and the cache, read right after the call, resolves
    ["archive_"] followed by the token to the archive [Compress] made. *)
Theorem Archive_link_is_bound (W : World) (service : ItemService) (c : Cache)
  (r : Response) (link : string) :
  outcome (Archive W service c) = Responded r →
  Data r = Some link →
  Code r = 0%Z
  ∧ ∃ fs zipFile,
      NewFileSystemFromContext W = inl fs
      ∧ fs_Compress fs (Dirs service) (Items service) = inl zipFile
      ∧ In (ECacheSet ("archive_" ++ RandStringRunes W 16) zipFile 30 None)
          (events (Archive W service c))
      ∧ cache_Get (cache_clock W) ("archive_" ++ RandStringRunes W 16)
          (store (Archive W service c)) = Some zipFile.
Proof.
  intros Hout Hdata.
  archive_cases W service c; unfold outcome in Hout; cbn in Hout;
    simplify_eq; try discriminate.
  split; [reflexivity|]. exists fs, zipFile.
  split; [assumption|]. split; [assumption|]. split.
  - cbn. do 3 right. by left.
  - cbn. rewrite cache_Get_store.
    by destruct (Z.ltb_spec (cache_clock W) (cache_clock W + 30)); [|lia].
Qed.

Lemma Archive_link_is_bound_witness :
  ∃ fs zipFile,
    NewFileSystemFromContext sunny = inl fs
    ∧ fs_Compress fs [1%N] [2%N] = inl zipFile
    ∧ In (ECacheSet ("archive_" ++ RandStringRunes sunny 16) zipFile 30 None)
        (events (Archive sunny (selection [1%N] [2%N]) ∅))
    ∧ cache_Get (cache_clock sunny) ("archive_" ++ RandStringRunes sunny 16)
        (store (Archive sunny (selection [1%N] [2%N]) ∅)) = Some zipFile.
Proof.
  refine (proj2 (Archive_link_is_bound sunny (selection [1%N] [2%N]) ∅
                   {| Code := 0;
                      Data := Some "https://pan.example.org/api/v3/file/archive/q7Xa0bR2mT9cZ4vK/archive.zip?sign=c2lnbg";
                      Msg := "" |}
                   "https://pan.example.org/api/v3/file/archive/q7Xa0bR2mT9cZ4vK/archive.zip?sign=c2lnbg"
                   _ _)); reflexivity.
Defined.

(** ** Archive: order of the steps, repeated requests, the edge of the clock *)

(** X12: the calls of [Archive] always come in one order.  Whatever happens,
    the calls made are an initial part of: context resolution, [Compress] on
    the request's directories and files, [SignURI] on the token's path with
    the expiry, one cache write of TTL 30 under the token's key.  So nothing
    is signed before compression and nothing is cached before signing. *)
Theorem Archive_steps_in_order (W : World) (service : ItemService)
  (c : Cache) :
  ∃ zipFile res,
    events (Archive W service c)
    `prefix_of`
    [ENewFileSystemFromContext;
     ECompress (Dirs service) (Items service);
     ESignURI (archive_path (RandStringRunes W 16))
       (int64_add (time_Now_Unix W) 30);
     ECacheSet ("archive_" ++ RandStringRunes W 16) zipFile 30 res].
Proof.
  archive_cases W service c;
    try (by exists "", None; eexists; cbn; reflexivity).
  - exists zipFile, (Some err). by exists [].
  - exists zipFile, None. by exists [].
Qed.

Lemma archive_key_inj (a b : string) :
  "archive_" ++ a = "archive_" ++ b → a = b.
Proof. apply (inj (String.append "archive_")). Qed.

(** X13: a second [Archive] that draws a different token leaves the ticket
    of a first, delivered [Archive] in place: until 30 time-units after the
    first write, the first token's key still resolves to the first archive. *)
Theorem Archive_twice_keeps_first (W1 W2 : World) (s1 s2 : ItemService)
  (c : Cache) (r1 : Response) (link : string) :
  outcome (Archive W1 s1 c) = Responded r1 →
  Data r1 = Some link →
  RandStringRunes W2 16 ≠ RandStringRunes W1 16 →
  ∃ fs zipFile,
    NewFileSystemFromContext W1 = inl fs
    ∧ fs_Compress fs (Dirs s1) (Items s1) = inl zipFile
    ∧ ∀ t, (t < cache_clock W1 + 30)%Z →
           cache_Get t ("archive_" ++ RandStringRunes W1 16)
             (store (Archive W2 s2 (store (Archive W1 s1 c))))
           = Some zipFile.
Proof.
  intros Hout Hdata Hne.
  assert (∀ t, cache_Get t ("archive_" ++ RandStringRunes W1 16)
                 (store (Archive W2 s2 (store (Archive W1 s1 c))))
               = cache_Get t ("archive_" ++ RandStringRunes W1 16)
                   (store (Archive W1 s1 c))) as Hframe.
  { intros t. unfold cache_Get.
    rewrite (Archive_other_keys W2 s2 (store (Archive W1 s1 c))); [done|].
    intros Heq. apply Hne. symmetry. by apply archive_key_inj. }
  archive_cases W1 s1 c; unfold outcome in Hout; cbn in Hout;
    simplify_eq; try discriminate.
  exists fs, zipFile. split; [assumption|]. split; [assumption|].
  intros t Ht. rewrite Hframe, cache_Get_store.
  by destruct (Z.ltb_spec t (cache_clock W1 + 30)); [|lia].
Qed.

Lemma Archive_twice_keeps_first_witness :
  cache_Get 1600000029 ("archive_" ++ sample_token)
    (store (Archive later (selection [3%N] [])
              (store (Archive sunny (selection [1%N] [2%N]) ∅))))
  = Some "/tmp/archive_7.zip".
Proof.
  destruct (Archive_twice_keeps_first sunny later (selection [1%N] [2%N])
              (selection [3%N] []) ∅
              {| Code := 0;
                 Data := Some "https://pan.example.org/api/v3/file/archive/q7Xa0bR2mT9cZ4vK/archive.zip?sign=c2lnbg";
                 Msg := "" |}
              "https://pan.example.org/api/v3/file/archive/q7Xa0bR2mT9cZ4vK/archive.zip?sign=c2lnbg")
    as (fs & zipFile & Hfs & Hzip & Hget).
  - reflexivity.
  - reflexivity.
  - vm_compute. discriminate.
  - injection Hfs as <-. injection Hzip as <-.
    apply Hget. cbn. lia.
Defined.

(** X14: the expiry is an [int64] sum.  When the clock reads a time within
    30 units of the largest [int64], every signature [Archive] asks for
    carries an expiry that has wrapped around: it is the clock plus 30 minus
    2^64, a time before the epoch. *)
Theorem Archive_expiry_wraps (W : World) (service : ItemService) (c : Cache)
  (uri : string) (expires : Z) :
  (2 ^ 63 - 30 ≤ time_Now_Unix W < 2 ^ 63)%Z →
  In (ESignURI uri expires) (events (Archive W service c)) →
  expires = (time_Now_Unix W + 30 - 2 ^ 64)%Z ∧ (expires < 0)%Z.
Proof.
  intros Hnow Hin.
  assert (int64_add (time_Now_Unix W) 30 = time_Now_Unix W + 30 - 2 ^ 64)%Z
    as Hwrap.
  { unfold int64_add, int64_wrap.
    replace (time_Now_Unix W + 30 + 2 ^ 63)%Z
      with (time_Now_Unix W + 30 - 2 ^ 63 + 1 * 2 ^ 64)%Z by lia.
    rewrite Z_mod_plus_full, Z.mod_small; lia. }
  archive_cases W service c; cbn in Hin;
    repeat (destruct Hin as [Hin|Hin]; try discriminate); try contradiction;
    injection Hin as _ <-; rewrite Hwrap; lia.
Qed.

Lemma Archive_expiry_wraps_witness :
  (-9223372036854775779 = time_Now_Unix end_of_time + 30 - 2 ^ 64)%Z
  ∧ (-9223372036854775779 < 0)%Z.
Proof.
  apply (Archive_expiry_wraps end_of_time (selection [1%N] [2%N]) ∅
           (archive_path sample_token)).
  - vm_compute. split; [discriminate | reflexivity].
  - vm_compute. do 2 right. left. reflexivity.
Defined.
